(** * Moon_Orbit: the Moon's path in the Sun's frame

    A shallow embedding of [Moon_Orbit.py]: the parameter form built by
    [create_gui], the submit handler [calculate_and_plot] and the closed-form
    trajectory it samples with numpy.

    The program computes on IEEE binary64 numbers.  The embedding is written
    once, over an interface of the arithmetic the source uses, and is read in
    two arithmetics: the exact real numbers ([R_arith], [R_trig]) and the
    binary64 floats of the kernel ([binary64_arith], for the operations
    IEEE 754 fixes: conversion from integers, [+], [-], [*], [/],
    comparisons; [np.cos] and [np.sin] stay abstract there). *)

From Stdlib Require Import ZArith String Ascii Bool Lia List.
From Stdlib Require Import Reals Lra.
From Stdlib Require Import Floats.
Import ListNotations.

Set Implicit Arguments.

(** ** The arithmetic of the source *)

(** The scalar operations of Python floats used by the program and by
    [numpy.linspace]. *)
Class Arith (F : Type) : Type := {
  of_int : Z -> F;          (* an int operand promoted to float *)
  add : F -> F -> F;
  sub : F -> F -> F;
  mul : F -> F -> F;
  div : F -> F -> F;
  eq0 : F -> bool;          (* x == 0 *)
  lt : F -> F -> Prop       (* x < y *)
}.

(** [np.pi], [np.cos] and [np.sin] on one scalar. *)
Class Trig (F : Type) : Type := {
  pi : F;
  cos : F -> F;
  sin : F -> F
}.

(** The square root, for the magnitudes the properties speak of. *)
Class Root (F : Type) : Type := {
  sqrt : F -> F
}.

(** What [int(x)] does on a float. *)
Inductive IntConv : Type :=
| IntOk (n : Z)
| IntValueError        (* int(nan) *)
| IntOverflowError.    (* int(inf) *)

(** The builtins [float(str)] and [int(float)].  [float_of_string s = None]
    is [float(s)] raising [ValueError]. *)
Class Builtins (F : Type) : Type := {
  float_of_string : string -> option F;
  int_of_float : F -> IntConv
}.

(** ** numpy arrays of rank one *)

Section Arrays.
Context {F : Type} {A : Arith F} {T : Trig F}.

(** [s * a] for a scalar [s] and an array [a]. *)
Definition smul (s : F) (a : list F) : list F := map (mul s) a.

(** [a + b] for two arrays of the same shape. *)
Definition vadd (a b : list F) : list F :=
  map (fun xy => add (fst xy) (snd xy)) (combine a b).

Definition vcos (a : list F) : list F := map cos a.
Definition vsin (a : list F) : list F := map sin a.

(** [np.arange(0, num)] as floats. *)
Definition arange (num : Z) : list F :=
  map (fun k => of_int (Z.of_nat k)) (seq 0 (Z.to_nat num)).

(** [y[-1] = v] *)
Definition set_last (y : list F) (v : F) : list F :=
  match y with
  | [] => []
  | _ => removelast y ++ [v]
  end.

(** [np.linspace(start, stop, num)], [endpoint=True]: the indices
    [0 .. num-1] are scaled by [step = (stop - start) / (num - 1)] and
    shifted by [start]; a step that underflows to zero is replaced by
    dividing the index first; the last entry is then overwritten with
    [stop] itself. *)
Definition linspace (start stop : F) (num : Z) : list F :=
  let dv := (num - 1)%Z in
  let delta := sub stop start in
  let y := arange num in
  let y :=
    if (0 <? dv)%Z then
      let step := div delta (of_int dv) in
      if eq0 step
      then map (fun v => mul (div v (of_int dv)) delta) y
      else map (fun v => mul v step) y
    else map (fun v => mul v delta) y in
  let y := map (fun v => add v start) y in
  if (1 <? num)%Z then set_last y stop else y.
End Arrays.

(** ** The trajectory generator (lines 57-67 of [calculate_and_plot]) *)

Record OrbitParameters (F : Type) : Type := {
  AU : F;
  EM_DIST : F;
  YEAR_DAYS : F;
  MONTH_DAYS : F;
  SCALE : F
}.

Record Trajectory (F : Type) : Type := {
  t : list F;
  xe : list F;
  ye : list F;
  xm : list F;
  ym : list F
}.

Definition sampleCount : Z := 10000.

Section Generator.
Context {F : Type} {A : Arith F} {T : Trig F}.

Definition omega_e (p : OrbitParameters F) : F :=
  div (mul (of_int 2) pi) (YEAR_DAYS p).

Definition omega_m (p : OrbitParameters F) : F :=
  div (mul (of_int 2) pi) (MONTH_DAYS p).

(** Lines 58-59 divide by the two periods, and Python's float division
    raises [ZeroDivisionError] on a divisor equal to zero. *)
Definition zero_period (p : OrbitParameters F) : bool :=
  eq0 (YEAR_DAYS p) || eq0 (MONTH_DAYS p).

(** Line 57: [np.linspace(0, YEAR_DAYS, 10000)]. *)
Definition sample_times (year : F) : list F :=
  linspace (of_int 0) year sampleCount.

(** The arrays of lines 57-67 when no period is zero, which is when the
    program gets to compute them. *)
Definition trajectory (p : OrbitParameters F) : Trajectory F :=
  let t := sample_times (YEAR_DAYS p) in
  let xe := smul (AU p) (vcos (smul (omega_e p) t)) in
  let ye := smul (AU p) (vsin (smul (omega_e p) t)) in
  let xm := vadd xe (smul (mul (EM_DIST p) (SCALE p)) (vcos (smul (omega_m p) t))) in
  let ym := vadd ye (smul (mul (EM_DIST p) (SCALE p)) (vsin (smul (omega_m p) t))) in
  {| t := t; xe := xe; ye := ye; xm := xm; ym := ym |}.

(** The two curves handed to [ax.plot]. *)
Definition earthPath (p : OrbitParameters F) : list (F * F) :=
  combine (xe (trajectory p)) (ye (trajectory p)).

Definition moonPath (p : OrbitParameters F) : list (F * F) :=
  combine (xm (trajectory p)) (ym (trajectory p)).
End Generator.

(** ** The form *)

(** A [ttk.Entry]: its text. *)
Record Entry : Type := { get : string }.

(** [entry.insert(0, s)] *)
Definition insert0 (s : string) (e : Entry) : Entry :=
  {| get := (s ++ get e)%string |}.

(** A Python [dict] with string keys, in insertion order. *)
Definition dict (V : Type) : Type := list (string * V).

Fixpoint dict_get {V : Type} (k : string) (d : dict V) : option V :=
  match d with
  | [] => None
  | (k', v) :: d' => if String.eqb k k' then Some v else dict_get k d'
  end.

(** [d[k] = v] *)
Fixpoint dict_set {V : Type} (k : string) (v : V) (d : dict V) : dict V :=
  match d with
  | [] => [(k, v)]
  | (k', v') :: d' =>
      if String.eqb k k' then (k', v) :: d' else (k', v') :: dict_set k v d'
  end.

(** [config_items] of [create_gui]: label, key, default text. *)
Definition config_items : list (string * string * string) :=
  [ ("日地平均距离 (km):", "AU", "149600000");
    ("地月平均距离 (km):", "EM_DIST", "384400");
    ("地球公转周期 (天):", "YEAR", "365.25");
    ("月球公转周期 (天):", "MONTH", "27.32");
    ("月球轨迹放大倍数:", "SCALE", "50") ]%string.

(** The loop of [create_gui] that fills [entries]: one fresh entry per
    item, the default inserted into it. *)
Definition create_entries (items : list (string * string * string)) : dict Entry :=
  fold_left
    (fun entries item =>
       let '(_, key, default) := item in
       dict_set key (insert0 default {| get := "" |}) entries)
    items [].

(** The state of the form when the window opens. *)
Definition create_gui : dict Entry := create_entries config_items.

(** ** The submit handler *)

Record Figure (F : Type) : Type := {
  sun : F * F;
  earth_orbit : list (F * F);
  moon_track : list (F * F);
  legend_scale : Z;      (* int(SCALE) in the legend *)
  title_days : F         (* YEAR_DAYS in the title *)
}.

(** What a call leaves behind, in order. *)
Inductive Event (F : Type) : Type :=
| Generated (tr : Trajectory F)            (* the arrays of lines 57-67 *)
| Shown (fig : Figure F)                   (* plt.show() *)
| ErrorDialog (title message : string).    (* messagebox.showerror *)

Inductive Exn : Type :=
| KeyError (k : string)
| ZeroDivisionError
| OverflowError.

Arguments ErrorDialog {F} title message.

Definition input_error {F : Type} : Event F :=
  ErrorDialog "输入错误" "请确保所有输入项都是有效的数字！".

Section Handler.
Context {F : Type} {A : Arith F} {T : Trig F} {B : Builtins F}.

(** [{name: float(entry.get()) for name, entry in entries.items()}];
    [None] when some [float] raises [ValueError]. *)
Fixpoint float_entries (es : dict Entry) (vals : dict F) : option (dict F) :=
  match es with
  | [] => Some vals
  | (name, entry) :: es' =>
      match float_of_string (get entry) with
      | None => None
      | Some v => float_entries es' (dict_set name v vals)
      end
  end.

(** The five subscripts [vals['AU']] ... [vals['SCALE']], in the order of
    the source; the first missing key is the [KeyError]. *)
Definition read_parameters (vals : dict F) : OrbitParameters F + Exn :=
  match dict_get "AU" vals with
  | None => inr (KeyError "AU")
  | Some au =>
  match dict_get "EM_DIST" vals with
  | None => inr (KeyError "EM_DIST")
  | Some em =>
  match dict_get "YEAR" vals with
  | None => inr (KeyError "YEAR")
  | Some year =>
  match dict_get "MONTH" vals with
  | None => inr (KeyError "MONTH")
  | Some month =>
  match dict_get "SCALE" vals with
  | None => inr (KeyError "SCALE")
  | Some scale =>
      inl {| AU := au; EM_DIST := em; YEAR_DAYS := year;
             MONTH_DAYS := month; SCALE := scale |}
  end end end end end.

(** [calculate_and_plot(entries)]: the events of the call and the
    exception that leaves it, if one does.  [ValueError] is the only
    exception the handler catches; a zero period stops the call at
    line 58 or 59, before the arrays exist.  The plotting calls of
    lines 71-91 are taken not to raise. *)
Definition calculate_and_plot (entries : dict Entry) : list (Event F) * option Exn :=
  match float_entries entries [] with
  | None => ([input_error], None)
  | Some vals =>
      match read_parameters vals with
      | inr e => ([], Some e)
      | inl p =>
          if zero_period p then ([], Some ZeroDivisionError) else
          let tr := trajectory p in
          match int_of_float (SCALE p) with
          | IntOk n =>
              ([Generated tr;
                Shown {| sun := (of_int 0, of_int 0);
                         earth_orbit := combine (xe tr) (ye tr);
                         moon_track := combine (xm tr) (ym tr);
                         legend_scale := n;
                         title_days := YEAR_DAYS p |}], None)
          | IntValueError => ([Generated tr; input_error], None)
          | IntOverflowError => ([Generated tr], Some OverflowError)
          end
      end
  end.
End Handler.

(** ** The positions as the specification words them *)

Section Positions.
Context {F : Type} {A : Arith F} {T : Trig F}.

(** [earthRate = 2π / yearLengthDays] *)
Definition earthRate (p : OrbitParameters F) : F :=
  div (mul (of_int 2) pi) (YEAR_DAYS p).

(** [moonRate = 2π / monthLengthDays] *)
Definition moonRate (p : OrbitParameters F) : F :=
  div (mul (of_int 2) pi) (MONTH_DAYS p).

(** [(sunEarthDistance·cos(earthRate·t), sunEarthDistance·sin(earthRate·t))] *)
Definition earth_position (p : OrbitParameters F) (ti : F) : F * F :=
  (mul (AU p) (cos (mul (earthRate p) ti)),
   mul (AU p) (sin (mul (earthRate p) ti))).

(** The Earth position plus
    [(earthMoonDistance·moonScaleFactor)·(cos(moonRate·t), sin(moonRate·t))]. *)
Definition moon_position (p : OrbitParameters F) (ti : F) : F * F :=
  (add (fst (earth_position p ti))
       (mul (mul (EM_DIST p) (SCALE p)) (cos (mul (moonRate p) ti))),
   add (snd (earth_position p ti))
       (mul (mul (EM_DIST p) (SCALE p)) (sin (mul (moonRate p) ti)))).
End Positions.

(** ** Properties of a sequence of sample times *)

Section SampleTimes.
Context {F : Type} {A : Arith F}.



End SampleTimes.

(** Valid parameters: the five values are positive. *)
Definition valid {F : Type} {A : Arith F} (p : OrbitParameters F) : Prop :=
  lt (of_int 0) (AU p) /\
  lt (of_int 0) (EM_DIST p) /\
  lt (of_int 0) (YEAR_DAYS p) /\
  lt (of_int 0) (MONTH_DAYS p) /\
  lt (of_int 0) (SCALE p).

(** ** Vectors between two points *)

Section Vectors.
Context {F : Type} {A : Arith F} {S : Root F}.

Definition origin : F * F := (of_int 0, of_int 0).

(** The vector from [e] to [m]. *)
Definition offset (e m : F * F) : F * F :=
  (sub (fst m) (fst e), sub (snd m) (snd e)).

(** The point [e] is on the circle of radius [r] around the origin:
    [x² + y² = r²]. *)
Definition on_circle (r : F) (e : F * F) : Prop :=
  add (mul (fst e) (fst e)) (mul (snd e) (snd e)) = mul r r.

(** The length of the vector from [e] to [m]. *)
Definition separation (e m : F * F) : F :=
  let d := offset e m in
  sqrt (add (mul (fst d) (fst d)) (mul (snd d) (snd d))).
End Vectors.

(** ** Exact real arithmetic *)

#[export] Instance R_arith : Arith R := {|
  of_int := IZR;
  add := Rplus;
  sub := Rminus;
  mul := Rmult;
  div := Rdiv;
  eq0 := fun x => if Req_dec_T x 0%R then true else false;
  lt := Rlt
|}.

#[export] Instance R_trig : Trig R := {|
  pi := PI;
  cos := Rtrigo_def.cos;
  sin := Rtrigo_def.sin
|}.

#[export] Instance R_root : Root R := {| sqrt := R_sqrt.sqrt |}.

(** Decimal literals, the part of the grammar of [float(str)] the form's
    defaults are written in: an optional sign, digits, an optional point
    and more digits, at least one digit in all.  The value is the mantissa
    over a power of ten. *)
Definition digit_of (c : ascii) : option Z :=
  let n := Z.of_nat (nat_of_ascii c) in
  if ((48 <=? n) && (n <=? 57))%Z then Some (n - 48)%Z else None.

Fixpoint digits (s : string) (m : Z) (n : nat) : Z * nat * string :=
  match s with
  | EmptyString => (m, n, s)
  | String c s' =>
      match digit_of c with
      | Some d => digits s' (10 * m + d)%Z (S n)
      | None => (m, n, s)
      end
  end.

Definition decimal (s : string) : option (Z * nat) :=
  let '(neg, body) :=
    match s with
    | String "-"%char s' => (true, s')
    | String "+"%char s' => (false, s')
    | _ => (false, s)
    end in
  let signed (m : Z) := if neg : bool then (- m)%Z else m in
  let '(m1, n1, rest) := digits body 0%Z 0%nat in
  match rest with
  | EmptyString => if (n1 =? 0)%nat then None else Some (signed m1, 0%nat)
  | String "."%char rest' =>
      let '(m2, n2, rest2) := digits rest' m1 0%nat in
      match rest2 with
      | EmptyString => if (n1 + n2 =? 0)%nat then None else Some (signed m2, n2)
      | _ => None
      end
  | _ => None
  end.

(** [int(x)] on a real number: towards zero. *)
Definition truncate (x : R) : Z :=
  if Rle_dec 0 x then Int_part x else (- Int_part (- x))%Z.

#[export] Instance R_builtins : Builtins R := {|
  float_of_string := fun s =>
    match decimal s with
    | Some (m, k) => Some (IZR m / IZR (10 ^ Z.of_nat k))%R
    | None => None
    end;
  int_of_float := fun x => IntOk (truncate x)
|}.

(** The parameters the form starts with. *)
Definition default_parameters : OrbitParameters R :=
  {| AU := 149600000%R; EM_DIST := 384400%R; YEAR_DAYS := 365.25%R;
     MONTH_DAYS := 27.32%R; SCALE := 50%R |}.

(** The same with the month as long as the year. *)
Definition month_as_year : OrbitParameters R :=
  {| AU := 149600000%R; EM_DIST := 384400%R; YEAR_DAYS := 365.25%R;
     MONTH_DAYS := 365.25%R; SCALE := 50%R |}.

(** The five default texts as [R_builtins] reads them. *)
Definition parsed_defaults : OrbitParameters R :=
  {| AU := (IZR 149600000 / IZR 1)%R; EM_DIST := (IZR 384400 / IZR 1)%R;
     YEAR_DAYS := (IZR 36525 / IZR 100)%R; MONTH_DAYS := (IZR 2732 / IZR 100)%R;
     SCALE := (IZR 50 / IZR 1)%R |}.

(** The form with [abc] typed into the Sun-Earth field. *)
Definition abc_entries : dict Entry :=
  dict_set "AU"%string {| get := "abc" |} create_gui.

(** ** IEEE 754 binary64 arithmetic *)

(** An integer rounded to the nearest binary64 number. *)
Definition float_of_Z (z : Z) : float :=
  SF2Prim (binary_normalize prec emax z 0 false).

#[export] Instance binary64_arith : Arith float := {|
  of_int := float_of_Z;
  add := PrimFloat.add;
  sub := PrimFloat.sub;
  mul := PrimFloat.mul;
  div := PrimFloat.div;
  eq0 := fun x => PrimFloat.eqb x 0%float;
  lt := fun x y => PrimFloat.ltb x y = true
|}.

#[export] Instance binary64_root : Root float := {| sqrt := PrimFloat.sqrt |}.

(** The parameters the form starts with, as binary64 numbers; 27.32 is
    rounded to the nearest one. *)
Definition default_binary64 : OrbitParameters float :=
  {| AU := 149600000%float; EM_DIST := 384400%float; YEAR_DAYS := 365.25%float;
     MONTH_DAYS := 0x1.b51eb851eb852p+4%float; SCALE := 50%float |}.

(** The defaults with the scale factor 1.1 typed in; 1.1 is rounded to the
    nearest binary64 number. *)
Definition scale_1_1 : OrbitParameters float :=
  {| AU := 149600000%float; EM_DIST := 384400%float; YEAR_DAYS := 365.25%float;
     MONTH_DAYS := 0x1.b51eb851eb852p+4%float;
     SCALE := 0x1.199999999999ap+0%float |}.

(** The defaults with the month as long as the year. *)
Definition month_as_year64 : OrbitParameters float :=
  {| AU := 149600000%float; EM_DIST := 384400%float; YEAR_DAYS := 365.25%float;
     MONTH_DAYS := 365.25%float; SCALE := 50%float |}.



(** [np.pi], and the binary64 number [2 * np.pi]. *)
Definition pi64 : float := 0x1.921fb54442d18p+1%float.
Definition two_pi64 : float := 0x1.921fb54442d18p+2%float.

(** [np.sin(2 * np.pi)], printed -2.4492935982947064e-16. *)
Definition sin_two_pi64 : float := (-0x1.1a62633145c07p-52)%float.

(** What is used of numpy's [pi], [cos] and [sin] in binary64: the value
    of [np.pi], that [cos] and [sin] are exact at zero, and the value of
    [np.sin] at [2 * np.pi], which is not a multiple of the period. *)
Definition libm_facts (T : Trig float) : Prop :=
  pi = pi64 /\
  cos 0%float = 1%float /\
  sin 0%float = 0%float /\
  sin two_pi64 = sin_two_pi64.

(** The Earth's angle at sample 7 of the default run,
    0.00439866958198391, and numpy's cosine and sine of it,
    0.9999903258685524 and 0.004398655397538851, both correctly rounded. *)
Definition angle_7 : float := 0x1.20456e0022cacp-8%float.
Definition cos_angle_7 : float := 0x1.fffebb63d7f83p-1%float.
Definition sin_angle_7 : float := 0x1.204531142c731p-8%float.

Definition libm_at_sample_7 (T : Trig float) : Prop :=
  pi = pi64 /\
  cos angle_7 = cos_angle_7 /\
  sin angle_7 = sin_angle_7.

(** ** Font configuration (lines 11-40) *)

(** The two entries of [plt.rcParams] the program writes. *)
Record RcParams : Type := {
  font_sans_serif : list string;     (* rcParams['font.sans-serif'] *)
  axes_unicode_minus : bool          (* rcParams['axes.unicode_minus'] *)
}.

Definition font_list : list string :=
  [ "Microsoft YaHei"; "SimHei"; "Arial Unicode MS"; "PingFang HK";
    "Heiti TC"; "WenQuanYi Micro Hei"; "Droid Sans Fallback";
    "sans-serif" ]%string.

(** [configure_chinese_font()]: the list is put in front of the fonts
    already configured and the Unicode minus sign is switched off. *)
Definition configure_chinese_font (rc : RcParams) : RcParams :=
  {| font_sans_serif := font_list ++ font_sans_serif rc;
     axes_unicode_minus := false |}.

(** The font a text is drawn with, as the docstring of
    [configure_chinese_font] describes it: the fonts of the list are tried
    in order until an available one is found. *)
Definition used_font (available : string -> bool) (rc : RcParams) : option string :=
  find available (font_sans_serif rc).

(** ** The form's fields as parameters *)

Definition keys {V : Type} (d : dict V) : list string := map fst d.

(** The keys [calculate_and_plot] subscripts [vals] with, in its order. *)
Definition parameter_keys : list string :=
  [ "AU"; "EM_DIST"; "YEAR"; "MONTH"; "SCALE" ]%string.

(** The first of them that a dict lacks. *)
Definition first_missing {V : Type} (d : dict V) : option string :=
  find (fun k => match dict_get k d with None => true | Some _ => false end)
       parameter_keys.

(** The key and the default text of an item of [config_items]. *)
Definition item_key (item : string * string * string) : string := snd (fst item).
Definition item_default (item : string * string * string) : string := snd item.

Section Fields.
Context {F : Type} {A : Arith F} {T : Trig F} {B : Builtins F}.

(** [float(entries[k].get())] *)
Definition field (es : dict Entry) (k : string) : option F :=
  match dict_get k es with
  | Some entry => float_of_string (get entry)
  | None => None
  end.

(** A field and the value read from it. *)
Definition reads (kv : string * Entry) (kv' : string * F) : Prop :=
  fst kv = fst kv' /\ float_of_string (get (snd kv)) = Some (snd kv').

(** Every field of the form is accepted by [float]. *)
Definition all_numeric (es : dict Entry) : Prop :=
  forall kv, In kv es -> float_of_string (get (snd kv)) <> None.

(** The figure drawn for parameters [p], with [n] the integer scale of the
    legend. *)
Definition figure_of (p : OrbitParameters F) (n : Z) : Figure F :=
  {| sun := (of_int 0, of_int 0);
     earth_orbit := earthPath p;
     moon_track := moonPath p;
     legend_scale := n;
     title_days := YEAR_DAYS p |}.
End Fields.

(** ** Facts that hold in every arithmetic *)

Section ArrayFacts.
Context {F : Type} {A : Arith F} {T : Trig F}.

Lemma combine_map_map (X Y Z : Type) (f : X -> Y) (g : X -> Z) (l : list X) :
  combine (map f l) (map g l) = map (fun x => (f x, g x)) l.
Proof.
  induction l as [|x l IH]; simpl; [reflexivity | now rewrite IH].
Qed.

Lemma vadd_map_map (X : Type) (f g : X -> F) (l : list X) :
  vadd (map f l) (map g l) = map (fun x => add (f x) (g x)) l.
Proof.
  unfold vadd. rewrite combine_map_map, map_map. reflexivity.
Qed.

Lemma smul_vcos_smul (s w : F) (l : list F) :
  smul s (vcos (smul w l)) = map (fun ti => mul s (cos (mul w ti))) l.
Proof. unfold smul, vcos. now rewrite !map_map. Qed.

Lemma smul_vsin_smul (s w : F) (l : list F) :
  smul s (vsin (smul w l)) = map (fun ti => mul s (sin (mul w ti))) l.
Proof. unfold smul, vsin. now rewrite !map_map. Qed.

Lemma set_last_length (y : list F) (v : F) :
  length (set_last y v) = length y.
Proof.
  destruct y as [|a y]; [reflexivity|].
  unfold set_last. rewrite length_app.
  rewrite (removelast_firstn_len (a :: y)), length_firstn.
  simpl length. lia.
Qed.

Lemma set_last_nth_inner (y : list F) (v d : F) (k : nat) :
  (S k < length y)%nat -> nth k (set_last y v) d = nth k y d.
Proof.
  intros Hk. destruct y as [|a y]; [simpl in Hk; lia|].
  unfold set_last.
  rewrite app_nth1.
  - rewrite (removelast_firstn_len (a :: y)).
    rewrite nth_firstn.
    replace (k <? pred (length (a :: y)))%nat with true; [reflexivity|].
    symmetry. apply Nat.ltb_lt. simpl length in *. lia.
  - rewrite (removelast_firstn_len (a :: y)), length_firstn.
    simpl length in *. lia.
Qed.

Lemma set_last_nth_last (y : list F) (v d : F) :
  y <> [] -> nth (pred (length y)) (set_last y v) d = v.
Proof.
  intros Hy. destruct y as [|a y]; [congruence|].
  unfold set_last.
  replace (pred (length (a :: y))) with (length (removelast (a :: y))).
  - apply nth_middle.
  - rewrite (removelast_firstn_len (a :: y)), length_firstn. lia.
Qed.

Lemma arange_length (num : Z) : length (arange num) = Z.to_nat num.
Proof. unfold arange. now rewrite length_map, length_seq. Qed.

Lemma arange_nth (num : Z) (k : nat) (d : F) :
  (k < Z.to_nat num)%nat -> nth k (arange num) d = of_int (Z.of_nat k).
Proof.
  intros Hk. unfold arange.
  rewrite (nth_indep _ d (of_int (Z.of_nat 0))) by now rewrite length_map, length_seq.
  rewrite (map_nth (fun k => of_int (Z.of_nat k))).
  now rewrite seq_nth.
Qed.

(** [linspace] returns [num] values. *)
Lemma linspace_length (start stop : F) (num : Z) :
  length (linspace start stop num) = Z.to_nat num.
Proof.
  unfold linspace.
  assert (E : forall y : list F,
             length y = Z.to_nat num ->
             length (if (1 <? num)%Z then set_last (map (fun v => add v start) y) stop
                     else map (fun v => add v start) y) = Z.to_nat num).
  { intros y Hy. destruct (1 <? num)%Z;
      [rewrite set_last_length|]; now rewrite length_map. }
  destruct (0 <? num - 1)%Z; [destruct (eq0 _)|];
    apply E; now rewrite length_map, arange_length.
Qed.

(** The last value is [stop] itself. *)
Lemma linspace_last (start stop d : F) (num : Z) :
  (1 < num)%Z ->
  nth (Z.to_nat (num - 1)) (linspace start stop num) d = stop.
Proof.
  intros Hnum. unfold linspace.
  apply Z.ltb_lt in Hnum as Hb. rewrite Hb.
  match goal with |- nth _ (set_last ?y _) _ = _ =>
    assert (Hy : length y = Z.to_nat num)
  end.
  { destruct (0 <? num - 1)%Z; [destruct (eq0 _)|];
      now rewrite !length_map, arange_length. }
  match goal with |- nth _ (set_last ?y _) _ = _ =>
    replace (Z.to_nat (num - 1)) with (pred (length y)) by (rewrite Hy; lia);
    apply set_last_nth_last
  end.
  intros E. rewrite E in Hy. simpl in Hy. lia.
Qed.

(** Every value but the last is its index times the step, plus [start],
    when the step is not zero. *)
Lemma linspace_inner (start stop d : F) (num : Z) (k : nat) :
  eq0 (div (sub stop start) (of_int (num - 1))) = false ->
  (Z.of_nat k < num - 1)%Z ->
  nth k (linspace start stop num) d =
  add (mul (of_int (Z.of_nat k)) (div (sub stop start) (of_int (num - 1)))) start.
Proof.
  intros Hstep Hk. unfold linspace.
  assert (Hb : (1 <? num)%Z = true) by (apply Z.ltb_lt; lia).
  assert (Hd : (0 <? num - 1)%Z = true) by (apply Z.ltb_lt; lia).
  rewrite Hb, Hd, Hstep.
  rewrite set_last_nth_inner by (rewrite !length_map, arange_length; lia).
  rewrite map_map.
  rewrite (nth_indep _ d
             ((fun v => add (mul v (div (sub stop start) (of_int (num - 1)))) start)
                (of_int 0)))
    by (rewrite length_map, arange_length; lia).
  rewrite (map_nth (fun v => add (mul v (div (sub stop start) (of_int (num - 1)))) start)).
  rewrite arange_nth by lia. reflexivity.
Qed.

Lemma sample_times_length (year : F) :
  length (sample_times year) = Z.to_nat sampleCount.
Proof. apply linspace_length. Qed.

(** X8. The sample times in every arithmetic, binary64 included, when the
    step is not zero: 10000 values, the last the year length itself, each
    earlier one its index times the step, plus 0. *)
Lemma sample_times_layout (year : F) :
  let step := div (sub year (of_int 0)) (of_int (sampleCount - 1)) in
  eq0 step = false ->
  Z.of_nat (length (sample_times year)) = 10000%Z /\
  nth (Z.to_nat (sampleCount - 1)) (sample_times year) (of_int 0) = year /\
  forall k : nat,
    (Z.of_nat k < sampleCount - 1)%Z ->
    nth k (sample_times year) (of_int 0) =
    add (mul (of_int (Z.of_nat k)) step) (of_int 0).
Proof.
  intros step Hstep. repeat split.
  - rewrite sample_times_length. reflexivity.
  - apply linspace_last. reflexivity.
  - intros k Hk. apply linspace_inner; assumption.
Qed.

Lemma map_sample_nth (X : Type) (f : F -> X) (d : X) (year : F) (k : nat) :
  (Z.of_nat k < sampleCount)%Z ->
  nth k (map f (sample_times year)) d = f (nth k (sample_times year) (of_int 0)).
Proof.
  intros Hk.
  rewrite (nth_indep _ d (f (of_int 0)))
    by (rewrite length_map, sample_times_length; unfold sampleCount in *; lia).
  apply map_nth.
Qed.

Lemma earthPath_map (p : OrbitParameters F) :
  earthPath p = map (earth_position p) (t (trajectory p)).
Proof.
  unfold earthPath. simpl.
  rewrite smul_vcos_smul, smul_vsin_smul, combine_map_map.
  reflexivity.
Qed.

Lemma moonPath_map (p : OrbitParameters F) :
  moonPath p = map (moon_position p) (t (trajectory p)).
Proof.
  unfold moonPath. simpl.
  rewrite !smul_vcos_smul, !smul_vsin_smul, !vadd_map_map, combine_map_map.
  reflexivity.
Qed.

Lemma times_length (p : OrbitParameters F) :
  Z.of_nat (length (t (trajectory p))) = 10000%Z.
Proof. simpl. rewrite sample_times_length. reflexivity. Qed.
End ArrayFacts.

(** ** The generator, in every arithmetic *)

Section GeneratorFacts.
Context {F : Type} {A : Arith F} {T : Trig F}.

(** C1. The generator works with the angular rates
    [earthRate = 2π / yearLengthDays] and [moonRate = 2π / monthLengthDays],
    and at each sample time the Earth and Moon positions it emits are the
    ones of the specification's formulas.  No assumption on the
    parameters is needed. *)
Theorem generator_positions (p : OrbitParameters F) :
  omega_e p = earthRate p /\
  omega_m p = moonRate p /\
  earthPath p = map (earth_position p) (t (trajectory p)) /\
  moonPath p = map (moon_position p) (t (trajectory p)).
Proof.
  repeat split; [apply earthPath_map | apply moonPath_map].
Qed.

(** C2. Both paths have exactly 10000 points, whatever the parameters. *)
Theorem paths_have_sampleCount_points (p : OrbitParameters F) :
  Z.of_nat (length (earthPath p)) = 10000%Z /\
  Z.of_nat (length (moonPath p)) = 10000%Z.
Proof.
  rewrite earthPath_map, moonPath_map, !length_map.
  split; apply times_length.
Qed.

End GeneratorFacts.

(** ** The handler, for every [float] and [int] *)

Section HandlerFacts.
Context {F : Type} {A : Arith F} {T : Trig F} {B : Builtins F}.

Lemma float_entries_fails (es : dict Entry) :
  (exists name entry,
      In (name, entry) es /\ float_of_string (get entry) = None) ->
  forall vals : dict F, float_entries es vals = None.
Proof.
  induction es as [|[name' entry'] es IH]; intros (name & entry & Hin & Hbad) vals.
  - destruct Hin.
  - simpl. destruct (float_of_string (get entry')) as [v|] eqn:E; [|reflexivity].
    apply IH. exists name, entry. split; [|exact Hbad].
    destruct Hin as [Heq|Hin]; [|exact Hin].
    inversion Heq; subst. congruence.
Qed.

(** C8. When the text of some field is not accepted by [float], the call
    shows the error dialog and does nothing else: no trajectory is
    generated, no figure is shown and no exception leaves the handler. *)
Theorem invalid_field_only_reports (entries : dict Entry) :
  (exists name entry,
      In (name, entry) entries /\ float_of_string (get entry) = None) ->
  calculate_and_plot entries = ([input_error], None).
Proof.
  intros H. unfold calculate_and_plot.
  now rewrite (float_entries_fails entries H).
Qed.
End HandlerFacts.

(** ** Exact real arithmetic: the curves as mathematics has them *)

Section Exact.
Local Open Scope R_scope.

Lemma step_not_zero (year : R) :
  0 < year ->
  eq0 (div (sub year (of_int 0)) (of_int (sampleCount - 1))) = false.
Proof.
  intros Hy. change (sampleCount - 1)%Z with 9999%Z. simpl.
  destruct (Req_dec_T ((year - 0) / 9999) 0) as [E|_]; [|reflexivity].
  exfalso. unfold Rdiv in E.
  apply Rmult_integral in E. destruct E as [E|E]; [lra|].
  assert (/ 9999 > 0) by (apply Rinv_0_lt_compat; lra). lra.
Qed.

(** In exact arithmetic the k-th sample time is [k · year / 9999]. *)
Lemma sample_times_nth (year : R) (k : nat) :
  0 < year ->
  (Z.of_nat k < sampleCount)%Z ->
  nth k (sample_times year) (of_int 0) = IZR (Z.of_nat k) * (year / 9999).
Proof.
  intros Hy Hk. unfold sample_times.
  destruct (Z.eq_dec (Z.of_nat k) (sampleCount - 1)) as [E|E].
  - replace k with (Z.to_nat (sampleCount - 1)) by lia.
    rewrite linspace_last by (unfold sampleCount; lia).
    rewrite Z2Nat.id by (unfold sampleCount; lia).
    change (sampleCount - 1)%Z with 9999%Z. field.
  - rewrite linspace_inner by (auto using step_not_zero; lia).
    change (sampleCount - 1)%Z with 9999%Z. simpl. field.
Qed.



Lemma hd_error_nth (X : Type) (l : list X) (d : X) :
  (0 < length l)%nat -> hd_error l = Some (nth 0 l d).
Proof. destruct l; simpl; [lia | reflexivity]. Qed.

Lemma path_nth (f : R -> R * R) (year : R) (k : nat) :
  0 < year ->
  (Z.of_nat k < sampleCount)%Z ->
  nth k (map f (sample_times year)) origin = f (IZR (Z.of_nat k) * (year / 9999)).
Proof.
  intros Hy Hk.
  rewrite (nth_indep _ origin (f (of_int 0)))
    by (rewrite length_map, sample_times_length; unfold sampleCount in *; lia).
  rewrite map_nth, sample_times_nth by assumption. reflexivity.
Qed.


(** The offset of the Moon from the Earth at one sample time. *)
Lemma offset_at (p : OrbitParameters R) (ti : R) :
  offset (earth_position p ti) (moon_position p ti) =
  (EM_DIST p * SCALE p * Rtrigo_def.cos (moonRate p * ti),
   EM_DIST p * SCALE p * Rtrigo_def.sin (moonRate p * ti)).
Proof.
  unfold offset, moon_position, earth_position. simpl. f_equal; ring.
Qed.

(** C5, in exact arithmetic.  With valid parameters the Earth is, at every
    sample, on the circle of radius [sunEarthDistance] around the Sun:
    [xe² + ye² = sunEarthDistance²]. *)
Theorem earth_on_circle (p : OrbitParameters R) (i : nat) :
  valid p ->
  (Z.of_nat i < sampleCount)%Z ->
  on_circle (AU p) (nth i (earthPath p) origin).
Proof.
  intros (_ & _ & Hy & _ & _) Hi. simpl in Hy.
  rewrite earthPath_map. simpl t. rewrite path_nth by assumption.
  unfold on_circle, earth_position. simpl.
  match goal with |- context [Rtrigo_def.cos ?x] => pose proof (sin2_cos2 x) as Hsc end.
  unfold Rsqr in *. nra.
Qed.

(** C4, in exact arithmetic.  With valid parameters the vector from the
    Earth to the Moon has length [earthMoonDistance·moonScaleFactor] at
    every sample; with the form's defaults that is 19220000. *)
Theorem earth_moon_separation (p : OrbitParameters R) (i : nat) :
  valid p ->
  (Z.of_nat i < sampleCount)%Z ->
  separation (nth i (earthPath p) origin) (nth i (moonPath p) origin) =
    EM_DIST p * SCALE p /\
  (p = default_parameters ->
   separation (nth i (earthPath p) origin) (nth i (moonPath p) origin) = 19220000).
Proof.
  intros (_ & Hem & Hy & _ & Hs) Hi. simpl in Hem, Hy, Hs.
  assert (E : separation (nth i (earthPath p) origin) (nth i (moonPath p) origin) =
              EM_DIST p * SCALE p).
  { rewrite earthPath_map, moonPath_map. simpl t.
    rewrite !path_nth by assumption.
    set (ti := IZR (Z.of_nat i) * (YEAR_DAYS p / 9999)).
    unfold separation. rewrite offset_at. cbn [fst snd]. simpl.
    match goal with |- context [Rtrigo_def.cos ?x] =>
      pose proof (sin2_cos2 x) as Hsc; unfold Rsqr in Hsc;
      set (c := Rtrigo_def.cos x) in *; set (s := Rtrigo_def.sin x) in *
    end.
    replace (EM_DIST p * SCALE p * c * (EM_DIST p * SCALE p * c) +
             EM_DIST p * SCALE p * s * (EM_DIST p * SCALE p * s))
      with (Rsqr (EM_DIST p * SCALE p)) by (unfold Rsqr; nra).
    apply sqrt_Rsqr. apply Rlt_le, Rmult_lt_0_compat; assumption. }
  split; [exact E|].
  intros ->. rewrite E. simpl. lra.
Qed.

(** C7, in exact arithmetic.  When the month is as long as the year the
    Moon's offset from the Earth is the same at the first sample and at the
    last. *)
Theorem full_revolution (p : OrbitParameters R) :
  valid p ->
  MONTH_DAYS p = YEAR_DAYS p ->
  let last := Z.to_nat (sampleCount - 1) in
  offset (nth 0 (earthPath p) origin) (nth 0 (moonPath p) origin) =
  offset (nth last (earthPath p) origin) (nth last (moonPath p) origin).
Proof.
  intros (_ & _ & Hy & _ & _) Hm last. simpl in Hy.
  rewrite earthPath_map, moonPath_map. simpl t.
  subst last. replace (Z.to_nat (sampleCount - 1)) with (Z.to_nat 9999) by reflexivity.
  rewrite !path_nth by (auto; unfold sampleCount; lia).
  rewrite !offset_at. rewrite Z2Nat.id by lia.
  unfold moonRate. rewrite Hm. simpl.
  replace (2 * PI / YEAR_DAYS p * (0 * (YEAR_DAYS p / 9999))) with 0 by ring.
  replace (2 * PI / YEAR_DAYS p * (9999 * (YEAR_DAYS p / 9999))) with (2 * PI)
    by (field; lra).
  now rewrite cos_0, sin_0, cos_2PI, sin_2PI.
Qed.
End Exact.

(** ** Binary64 arithmetic: the sample times as the program has them *)

Section Binary64.
Local Open Scope float_scope.

Lemma default_step :
  eq0 (div (sub 365.25 (of_int 0)) (of_int (sampleCount - 1))) = false.
Proof. vm_compute. reflexivity. Qed.


(** The facts are consistent: a table with these entries has them. *)
Lemma libm_facts_consistent : exists T : Trig float, libm_facts T.
Proof.
  exists {| pi := pi64;
            cos := fun x => if PrimFloat.eqb x 0 then 1 else x;
            sin := fun x => if PrimFloat.eqb x 0 then 0 else sin_two_pi64 |}.
  repeat split; vm_compute; reflexivity.
Qed.

Lemma default_first_time : nth 0 (sample_times 365.25) (of_int 0) = 0.
Proof.
  unfold sample_times.
  rewrite linspace_inner by (try apply default_step; unfold sampleCount; lia).
  vm_compute. reflexivity.
Qed.

Lemma default_last_time :
  nth (Z.to_nat (sampleCount - 1)) (sample_times 365.25) (of_int 0) = 365.25.
Proof. apply linspace_last. reflexivity. Qed.

(** The two positions at time 0, when the rates times 0 are 0. *)
Lemma positions_at_zero (T : Trig float) (p : OrbitParameters float) :
  libm_facts T ->
  mul (earthRate p) 0 = 0 ->
  mul (moonRate p) 0 = 0 ->
  earth_position p 0 = (mul (AU p) 1, mul (AU p) 0) /\
  moon_position p 0 =
    (add (mul (AU p) 1) (mul (mul (EM_DIST p) (SCALE p)) 1),
     add (mul (AU p) 0) (mul (mul (EM_DIST p) (SCALE p)) 0)).
Proof.
  intros (_ & Hcos & Hsin & _) He Hm.
  unfold moon_position, earth_position. cbn [fst snd].
  rewrite He, Hm, Hcos, Hsin. split; reflexivity.
Qed.

(** The first sample in binary64 arithmetic, at the form's defaults:
    nothing is rounded. *)
Lemma first_sample_binary64 (T : Trig float) :
  libm_facts T ->
  hd_error (earthPath default_binary64) = Some (149600000, 0) /\
  hd_error (moonPath default_binary64) = Some (168820000, 0).
Proof.
  intros HT. pose proof HT as (Hpi & _).
  destruct (@positions_at_zero T default_binary64 HT) as [He Hm];
    try (unfold earthRate, moonRate; rewrite Hpi; vm_compute; reflexivity).
  rewrite earthPath_map, moonPath_map. simpl t.
  rewrite !(hd_error_nth _ origin)
    by (rewrite length_map, sample_times_length; unfold sampleCount; lia).
  rewrite !map_sample_nth by (unfold sampleCount; lia).
  change (YEAR_DAYS default_binary64) with 365.25.
  rewrite default_first_time, He, Hm.
  split; vm_compute; reflexivity.
Qed.

(** C4 fails in binary64 arithmetic.  With the defaults and the scale
    factor 1.1, the offset [384400 * 1.1] is 422840.00000000006; added to
    the Earth's abscissa 149600000 it rounds to 150022840, so at the first
    sample the Moon is at distance 422840 from the Earth. *)
Lemma separation_binary64_rounded :
  ~ (exists T : Trig float,
        libm_facts T /\
        forall (p : OrbitParameters float) (i : nat),
          valid p ->
          (Z.of_nat i < sampleCount)%Z ->
          separation (nth i (earthPath p) origin) (nth i (moonPath p) origin) =
          mul (EM_DIST p) (SCALE p)).
Proof.
  intros (T & HT & H). pose proof HT as (Hpi & _).
  specialize (H scale_1_1 0%nat).
  destruct (@positions_at_zero T scale_1_1 HT) as [He Hm];
    try (unfold earthRate, moonRate; rewrite Hpi; vm_compute; reflexivity).
  rewrite earthPath_map, moonPath_map in H. simpl t in H.
  rewrite !map_sample_nth in H by (unfold sampleCount; lia).
  change (YEAR_DAYS scale_1_1) with 365.25 in H.
  rewrite default_first_time, He, Hm in H.
  assert (E : separation (nth 0 [(mul (AU scale_1_1) 1, mul (AU scale_1_1) 0)] origin)
                (nth 0 [(add (mul (AU scale_1_1) 1)
                           (mul (mul (EM_DIST scale_1_1) (SCALE scale_1_1)) 1),
                         add (mul (AU scale_1_1) 0)
                           (mul (mul (EM_DIST scale_1_1) (SCALE scale_1_1)) 0))] origin)
              = 422840) by (vm_compute; reflexivity).
  cbn [nth] in E. rewrite E in H.
  assert (Hv : valid scale_1_1) by (repeat split; vm_compute; reflexivity).
  specialize (H Hv ltac:(unfold sampleCount; lia)).
  apply (f_equal Prim2SF) in H. vm_compute in H. discriminate H.
Qed.
(** C7 fails in binary64 arithmetic.  With the defaults and a month of
    365.25 days, the angle at the last sample is the binary64 number
    [2 * np.pi], whose sine is about -2.4e-16 and not 0: the ordinate of the
    Moon's offset is 0 at the first sample and about -4.7e-9 at the last. *)
Lemma revolution_binary64_rounded :
  ~ (exists T : Trig float,
        libm_facts T /\
        forall p : OrbitParameters float,
          valid p ->
          MONTH_DAYS p = YEAR_DAYS p ->
          let last := Z.to_nat (sampleCount - 1) in
          offset (nth 0 (earthPath p) origin) (nth 0 (moonPath p) origin) =
          offset (nth last (earthPath p) origin) (nth last (moonPath p) origin)).
Proof.
  intros (T & HT & H). pose proof HT as (Hpi & _ & _ & Hsin).
  specialize (H month_as_year64).
  destruct (@positions_at_zero T month_as_year64 HT) as [He Hm];
    try (unfold earthRate, moonRate; rewrite Hpi; vm_compute; reflexivity).
  assert (Ha : mul (earthRate month_as_year64) 365.25 = two_pi64)
    by (unfold earthRate; rewrite Hpi; vm_compute; reflexivity).
  assert (Hb : mul (moonRate month_as_year64) 365.25 = two_pi64)
    by (unfold moonRate; rewrite Hpi; vm_compute; reflexivity).
  assert (Hv : valid month_as_year64) by (repeat split; vm_compute; reflexivity).
  specialize (H Hv eq_refl). cbv zeta in H.
  rewrite earthPath_map, moonPath_map in H. simpl t in H.
  rewrite !map_sample_nth in H by (unfold sampleCount; lia).
  change (YEAR_DAYS month_as_year64) with 365.25 in H.
  rewrite default_first_time, default_last_time, He, Hm in H.
  unfold moon_position, earth_position in H. cbn [fst snd] in H.
  rewrite Ha, Hb, Hsin in H.
  apply (f_equal snd) in H. unfold offset in H. cbn [fst snd] in H.
  apply (f_equal Prim2SF) in H. vm_compute in H. discriminate H.
Qed.



(** The facts about sample 7 are consistent. *)
Lemma libm_at_sample_7_consistent : exists T : Trig float, libm_at_sample_7 T.
Proof.
  exists {| pi := pi64;
            cos := fun _ => cos_angle_7;
            sin := fun _ => sin_angle_7 |}.
  repeat split.
Qed.

(** C5 fails in binary64 arithmetic.  At sample 7 of the default run the
    Earth is at 149600000 times numpy's cosine and sine of
    0.00439866958198391; the sum of the two squares is one unit in the
    last place above [149600000²]. *)
Lemma circle_binary64_rounded :
  ~ (exists T : Trig float,
        libm_at_sample_7 T /\
        forall (p : OrbitParameters float) (i : nat),
          valid p ->
          (Z.of_nat i < sampleCount)%Z ->
          on_circle (AU p) (nth i (earthPath p) origin)).
Proof.
  intros (T & (Hpi & Hcos & Hsin) & H).
  specialize (H default_binary64 7%nat).
  assert (Ht : nth 7 (sample_times 365.25) (of_int 0) = 0x1.05d65ec7da84ap-2).
  { unfold sample_times.
    rewrite linspace_inner by (try apply default_step; unfold sampleCount; lia).
    vm_compute. reflexivity. }
  assert (Ha : mul (earthRate default_binary64) 0x1.05d65ec7da84ap-2 = angle_7)
    by (unfold earthRate; rewrite Hpi; vm_compute; reflexivity).
  rewrite earthPath_map in H. simpl t in H.
  rewrite map_sample_nth in H by (unfold sampleCount; lia).
  change (YEAR_DAYS default_binary64) with 365.25 in H.
  rewrite Ht in H. unfold earth_position in H. rewrite Ha, Hcos, Hsin in H.
  assert (Hv : valid default_binary64) by (repeat split; vm_compute; reflexivity).
  specialize (H Hv ltac:(unfold sampleCount; lia)).
  unfold on_circle in H.
  apply (f_equal Prim2SF) in H. vm_compute in H. discriminate H.
Qed.


End Binary64.

(** ** The form when the window opens *)

Section Defaults.
Local Open Scope string_scope.

Lemma decimal_value (s : string) (m : Z) (k : nat) :
  decimal s = Some (m, k) ->
  float_of_string s = Some (IZR m / IZR (10 ^ Z.of_nat k))%R.
Proof. intros E. simpl. now rewrite E. Qed.

(** C9 fails as worded: the Sun-Earth field does not start at
    150 000 000. *)
Lemma default_sun_earth_distance_differs :
  ~ (exists e : Entry,
        dict_get "AU" create_gui = Some e /\
        float_of_string (get e) = Some 150000000%R).
Proof.
  intros (e & He & Hv).
  vm_compute in He. injection He as <-.
  rewrite (@decimal_value _ 149600000%Z 0%nat) in Hv by (vm_compute; reflexivity).
  injection Hv as Hv. change (10 ^ Z.of_nat 0)%Z with 1%Z in Hv. lra.
Qed.

(** C9, amended.  When the window opens the five fields hold, in order,
    the texts 149600000, 384400, 365.25, 27.32 and 50, which [float]
    reads as these numbers. *)
Theorem form_defaults :
  map (fun kv => (fst kv, get (snd kv))) create_gui =
    [("AU", "149600000"); ("EM_DIST", "384400"); ("YEAR", "365.25");
     ("MONTH", "27.32"); ("SCALE", "50")] /\
  map (fun kv => float_of_string (get (snd kv))) create_gui =
    [Some 149600000; Some 384400; Some 365.25; Some 27.32; Some 50]%R.
Proof.
  split; [vm_compute; reflexivity|].
  change create_gui with
    [("AU", {| get := "149600000" |}); ("EM_DIST", {| get := "384400" |});
     ("YEAR", {| get := "365.25" |}); ("MONTH", {| get := "27.32" |});
     ("SCALE", {| get := "50" |})].
  cbn [map snd get].
  rewrite (@decimal_value _ 149600000%Z 0%nat) by (vm_compute; reflexivity).
  rewrite (@decimal_value _ 384400%Z 0%nat) by (vm_compute; reflexivity).
  rewrite (@decimal_value _ 36525%Z 2%nat) by (vm_compute; reflexivity).
  rewrite (@decimal_value _ 2732%Z 2%nat) by (vm_compute; reflexivity).
  rewrite (@decimal_value _ 50%Z 0%nat) by (vm_compute; reflexivity).
  change (10 ^ Z.of_nat 0)%Z with 1%Z. change (10 ^ Z.of_nat 2)%Z with 100%Z.
  repeat (f_equal; try lra).
Qed.
End Defaults.

(** ** The theorems at the form's defaults *)

Section Witnesses.
Local Open Scope R_scope.

Lemma default_parameters_valid : valid default_parameters.
Proof. unfold valid; simpl; repeat split; lra. Defined.



Lemma earth_on_circle_default :
  valid default_parameters /\
  (Z.of_nat 7 < sampleCount)%Z /\
  on_circle 149600000 (nth 7 (earthPath default_parameters) origin).
Proof.
  assert (Hi : (Z.of_nat 7 < sampleCount)%Z) by reflexivity.
  split; [exact default_parameters_valid|]. split; [exact Hi|].
  apply (@earth_on_circle default_parameters 7%nat default_parameters_valid Hi).
Defined.

Lemma earth_moon_separation_default :
  valid default_parameters /\
  (Z.of_nat 0 < sampleCount)%Z /\
  separation (nth 0 (earthPath default_parameters) origin)
             (nth 0 (moonPath default_parameters) origin) = 19220000.
Proof.
  assert (Hi : (Z.of_nat 0 < sampleCount)%Z) by reflexivity.
  split; [exact default_parameters_valid|]. split; [exact Hi|].
  exact (proj2 (earth_moon_separation 0 default_parameters_valid Hi) eq_refl).
Defined.

Lemma month_as_year_valid : valid month_as_year.
Proof. unfold valid; simpl; repeat split; lra. Defined.

Lemma full_revolution_month_as_year :
  valid month_as_year /\
  MONTH_DAYS month_as_year = YEAR_DAYS month_as_year /\
  offset (nth 0 (earthPath month_as_year) origin)
         (nth 0 (moonPath month_as_year) origin) =
  offset (nth (Z.to_nat (sampleCount - 1)) (earthPath month_as_year) origin)
         (nth (Z.to_nat (sampleCount - 1)) (moonPath month_as_year) origin).
Proof.
  split; [exact month_as_year_valid|]. split; [reflexivity|].
  exact (full_revolution month_as_year_valid eq_refl).
Defined.

Lemma invalid_field_abc :
  (exists name entry,
      In (name, entry) abc_entries /\
      float_of_string (F := R) (get entry) = None) /\
  calculate_and_plot (F := R) abc_entries = ([input_error], None).
Proof.
  assert (H : exists name entry,
             In (name, entry) abc_entries /\
             float_of_string (F := R) (get entry) = None).
  { exists "AU"%string, {| get := "abc" |}. split.
    - vm_compute. left. reflexivity.
    - vm_compute. reflexivity. }
  split; [exact H|].
  exact (invalid_field_only_reports abc_entries H).
Defined.
End Witnesses.

(** ** The font configuration *)

Section FontFacts.
Variable available : string -> bool.

Lemma find_app_first (X : Type) (f : X -> bool) (l1 l2 : list X) :
  find f (l1 ++ l2) =
  match find f l1 with
  | Some x => Some x
  | None => find f l2
  end.
Proof.
  induction l1 as [|x l1 IH]; simpl; [reflexivity|].
  destruct (f x); [reflexivity | exact IH].
Qed.

(** X1. After the configuration a text is drawn with the first available
    font of the program's list; only when none of them is available does
    the font configured before stay in use. *)
Theorem configured_font (rc : RcParams) :
  used_font available (configure_chinese_font rc) =
  match find available font_list with
  | Some f => Some f
  | None => used_font available rc
  end.
Proof.
  unfold used_font.
  change (font_sans_serif (configure_chinese_font rc))
    with (font_list ++ font_sans_serif rc).
  apply find_app_first.
Qed.

(** X2. Configuring again puts the eight names in front once more, so the
    list grows by eight at every call, but the font in use does not
    change. *)
Theorem configure_again (rc : RcParams) :
  length (font_sans_serif (configure_chinese_font (configure_chinese_font rc))) =
    (8 + length (font_sans_serif (configure_chinese_font rc)))%nat /\
  used_font available (configure_chinese_font (configure_chinese_font rc)) =
    used_font available (configure_chinese_font rc).
Proof.
  split.
  - cbn. reflexivity.
  - unfold used_font.
    change (font_sans_serif (configure_chinese_font (configure_chinese_font rc)))
      with (font_list ++ font_sans_serif (configure_chinese_font rc)).
    rewrite find_app_first.
    change (font_sans_serif (configure_chinese_font rc))
      with (font_list ++ font_sans_serif rc).
    rewrite find_app_first.
    destruct (find available font_list); reflexivity.
Qed.
End FontFacts.

(** ** Dicts in insertion order *)

Section DictFacts.
Context {V : Type}.

Lemma dict_set_fresh (k : string) (v : V) (d : dict V) :
  ~ In k (keys d) -> dict_set k v d = d ++ [(k, v)].
Proof.
  induction d as [|[k' v'] d IH]; simpl; intros H; [reflexivity|].
  destruct (String.eqb_spec k k') as [->|Hne].
  - exfalso. apply H. left. reflexivity.
  - rewrite IH; [reflexivity|]. intros Hin. apply H. right. exact Hin.
Qed.

Lemma dict_get_In (k : string) (v : V) (d : dict V) :
  dict_get k d = Some v -> In (k, v) d.
Proof.
  induction d as [|[k' v'] d IH]; simpl; [discriminate|].
  destruct (String.eqb_spec k k') as [->|Hne].
  - intros [= ->]. left. reflexivity.
  - intros H. right. apply IH, H.
Qed.

Lemma keys_app (d1 d2 : dict V) : keys (d1 ++ d2) = keys d1 ++ keys d2.
Proof. apply map_app. Qed.
End DictFacts.

(** ** The loop that fills the form *)

Section FormFacts.

Lemma append_empty (s : string) : (s ++ "")%string = s.
Proof. induction s as [|c s IH]; simpl; [reflexivity | now rewrite IH]. Qed.

Lemma create_entries_from (items : list (string * string * string)) (acc : dict Entry) :
  NoDup (keys acc ++ map item_key items) ->
  fold_left
    (fun entries item =>
       let '(_, key, default) := item in
       dict_set key (insert0 default {| get := "" |}) entries)
    items acc =
  acc ++ map (fun item => (item_key item, {| get := item_default item |})) items.
Proof.
  revert acc. induction items as [|[[label key] default] items IH]; intros acc Hnd.
  - simpl. now rewrite app_nil_r.
  - simpl fold_left. cbn [map item_key item_default fst snd] in *.
    assert (Hfresh : ~ In key (keys acc)).
    { apply NoDup_remove_2 in Hnd. intros Hin. apply Hnd.
      apply in_or_app. left. exact Hin. }
    rewrite dict_set_fresh by exact Hfresh.
    rewrite IH.
    + rewrite <- app_assoc. simpl. unfold insert0. simpl.
      now rewrite append_empty.
    + rewrite keys_app. simpl. rewrite <- app_assoc. exact Hnd.
Qed.

(** X3. Whatever the list of items, as long as their keys differ, the loop
    of [create_gui] leaves one field per item, in the order of the items,
    each under its key and holding its default text. *)
Theorem create_entries_fields (items : list (string * string * string)) :
  NoDup (map item_key items) ->
  map (fun kv => (fst kv, get (snd kv))) (create_entries items) =
  map (fun item => (item_key item, item_default item)) items.
Proof.
  intros Hnd. unfold create_entries.
  rewrite create_entries_from by exact Hnd.
  simpl. rewrite map_map. reflexivity.
Qed.
End FormFacts.

(** ** The handler, field by field *)

Section SubmitFacts.
Context {F : Type} {A : Arith F} {T : Trig F} {B : Builtins F}.

Lemma float_entries_from (es : dict Entry) (acc : dict F) :
  NoDup (keys acc ++ keys es) ->
  all_numeric es ->
  exists vs, float_entries es acc = Some (acc ++ vs) /\ Forall2 reads es vs.
Proof.
  revert acc. induction es as [|[name entry] es IH]; intros acc Hnd Hall.
  - exists []. split; [simpl; now rewrite app_nil_r | constructor].
  - simpl float_entries.
    destruct (float_of_string (get entry)) as [v|] eqn:E.
    2:{ exfalso. apply (Hall (name, entry)); [left; reflexivity | exact E]. }
    assert (Hfresh : ~ In name (keys acc)).
    { simpl in Hnd. apply NoDup_remove_2 in Hnd. intros Hin. apply Hnd.
      apply in_or_app. left. exact Hin. }
    rewrite dict_set_fresh by exact Hfresh.
    destruct (IH (acc ++ [(name, v)])) as (vs & Hfe & Hrel).
    + rewrite keys_app. simpl. rewrite <- app_assoc. exact Hnd.
    + intros kv Hin. apply Hall. right. exact Hin.
    + exists ((name, v) :: vs). split.
      * rewrite Hfe, <- app_assoc. reflexivity.
      * constructor; [split; [reflexivity | exact E] | exact Hrel].
Qed.

Lemma reads_lookup (es : dict Entry) (vs : dict F) (k : string) :
  Forall2 reads es vs -> dict_get k vs = field es k.
Proof.
  unfold field. induction 1 as [|[k1 e1] [k2 v2] es vs [Hk Hv] _ IH]; [reflexivity|].
  simpl in Hk, Hv. subst k2. simpl.
  destruct (String.eqb k k1); [now rewrite Hv | exact IH].
Qed.

Lemma reads_keys (es : dict Entry) (vs : dict F) :
  Forall2 reads es vs -> keys vs = keys es.
Proof.
  induction 1 as [|[k1 e1] [k2 v2] es vs [Hk _] _ IH]; [reflexivity|].
  simpl in *. now rewrite IH, Hk.
Qed.

(** X4. When every field is accepted by [float], the dict comprehension
    of line 47 yields a dict with the keys of the form, in the same order,
    in which each key holds the number read from its own field. *)
Theorem float_entries_reads (es : dict Entry) :
  NoDup (keys es) ->
  all_numeric es ->
  exists vals,
    float_entries es [] = Some vals /\
    keys vals = keys es /\
    forall k, dict_get k vals = field es k.
Proof.
  intros Hnd Hall.
  destruct (@float_entries_from es [] Hnd Hall) as (vs & Hfe & Hrel).
  exists vs. split; [exact Hfe|]. split.
  - now apply reads_keys.
  - intros k. now apply reads_lookup.
Qed.

Lemma float_entries_numeric (es : dict Entry) (acc vals : dict F) :
  float_entries es acc = Some vals -> all_numeric es.
Proof.
  revert acc. induction es as [|[name entry] es IH]; intros acc H kv Hin.
  - destruct Hin.
  - simpl in H. destruct (float_of_string (get entry)) as [v|] eqn:E; [|discriminate].
    destruct Hin as [<-|Hin]; [simpl; congruence|].
    exact (IH _ H kv Hin).
Qed.

(** X5. A submit with every field numeric, the five parameters present,
    both periods non-zero and a scale [int] accepts generates the
    trajectory of exactly these five values, each taken from its own field,
    and shows the figure of that trajectory; nothing else happens. *)
Theorem submit_plots (es : dict Entry) (p : OrbitParameters F) (n : Z) :
  NoDup (keys es) ->
  all_numeric es ->
  field es "AU" = Some (AU p) ->
  field es "EM_DIST" = Some (EM_DIST p) ->
  field es "YEAR" = Some (YEAR_DAYS p) ->
  field es "MONTH" = Some (MONTH_DAYS p) ->
  field es "SCALE" = Some (SCALE p) ->
  zero_period p = false ->
  int_of_float (SCALE p) = IntOk n ->
  calculate_and_plot es = ([Generated (trajectory p); Shown (figure_of p n)], None).
Proof.
  intros Hnd Hall Ha He Hy Hm Hs Hz Hn.
  destruct (@float_entries_from es [] Hnd Hall) as (vals & Hfe & Hrel).
  pose proof (fun k => reads_lookup k Hrel) as Hget. simpl in Hfe.
  unfold calculate_and_plot, read_parameters.
  rewrite Hfe, !Hget, Ha, He, Hy, Hm, Hs.
  destruct p as [a e y m s]. unfold zero_period in *. simpl in *.
  rewrite Hz, Hn. reflexivity.
Qed.

(** X6. A submit with every field numeric but one of the five parameters
    absent from the form ends in the [KeyError] of the first absent key,
    which the handler does not catch: no dialog, no trajectory, no
    figure. *)
Theorem submit_missing_key (es : dict Entry) (k : string) :
  NoDup (keys es) ->
  all_numeric es ->
  first_missing es = Some k ->
  calculate_and_plot es = ([], Some (KeyError k)).
Proof.
  intros Hnd Hall Hk.
  destruct (@float_entries_from es [] Hnd Hall) as (vals & Hfe & Hrel).
  pose proof (fun k => reads_lookup k Hrel) as Hget. simpl in Hfe.
  unfold calculate_and_plot, read_parameters. rewrite Hfe, !Hget.
  unfold first_missing, parameter_keys in Hk. simpl in Hk. unfold field.
  repeat match goal with
  | |- context [dict_get ?key es] =>
      let E := fresh "E" in
      let P := fresh "P" in
      revert Hk; destruct (dict_get key es) as [?e|] eqn:E; intros Hk;
      cbn iota in Hk |- *;
      [ match goal with
        | |- context [float_of_string (get ?e)] =>
            destruct (float_of_string (get e)) eqn:P;
            [| exfalso; exact (Hall (key, e) (dict_get_In _ _ E) P) ]
        end
      | injection Hk as <-; reflexivity ]
  end.
  discriminate Hk.
Qed.

(** X7. Whenever a submit shows a figure, every field of the form was
    numeric, the Sun is drawn at the origin and the two curves have 10000
    points each. *)
Theorem shown_figure (es : dict Entry) (fig : Figure F) :
  In (Shown fig) (fst (calculate_and_plot es)) ->
  all_numeric es /\
  sun fig = (of_int 0, of_int 0) /\
  Z.of_nat (length (earth_orbit fig)) = 10000%Z /\
  Z.of_nat (length (moon_track fig)) = 10000%Z.
Proof.
  unfold calculate_and_plot.
  destruct (float_entries es []) as [vals|] eqn:Hfe.
  2:{ cbn [fst In]. intros [H|[]]. discriminate H. }
  destruct (read_parameters vals) as [p|e]; [|intros []].
  destruct (zero_period p); [intros []|].
  destruct (int_of_float (SCALE p)); cbn [fst In].
  - intros [H|[H|[]]]; [discriminate H|]. injection H as <-.
    split; [exact (float_entries_numeric _ _ Hfe)|]. split; [reflexivity|].
    change (Z.of_nat (length (earthPath p)) = 10000%Z /\
            Z.of_nat (length (moonPath p)) = 10000%Z).
    rewrite earthPath_map, moonPath_map, !length_map.
    split; apply times_length.
  - intros [H|[H|[]]]; discriminate H.
  - intros [H|[]]. discriminate H.
Qed.
End SubmitFacts.

(** ** The orbit *)

Section OrbitFacts.
Context {F : Type} {A : Arith F} {T : Trig F}.

(** X9. As long as no period is zero, the sample times and the Earth's
    orbit depend on the Sun-Earth distance and the year only: changing the
    Earth-Moon distance, the month or the scale factor does not move
    them. *)
Theorem earth_orbit_ignores_moon (p q : OrbitParameters F) :
  zero_period p = false ->
  zero_period q = false ->
  AU p = AU q ->
  YEAR_DAYS p = YEAR_DAYS q ->
  t (trajectory p) = t (trajectory q) /\ earthPath p = earthPath q.
Proof.
  intros _ _ Ha Hy. rewrite !earthPath_map. simpl t. rewrite Hy.
  split; [reflexivity|].
  apply map_ext. intros ti.
  unfold earth_position, earthRate. now rewrite Ha, Hy.
Qed.
End OrbitFacts.

Section ExactOrbit.
Local Open Scope R_scope.

(** X10. In exact arithmetic the Earth's orbit is closed: with valid
    parameters the last sample puts the Earth back where the first one has
    it, at [(sunEarthDistance, 0)]. *)
Theorem earth_orbit_closes (p : OrbitParameters R) :
  valid p ->
  nth 0 (earthPath p) origin = (AU p, 0) /\
  nth (Z.to_nat (sampleCount - 1)) (earthPath p) origin = (AU p, 0).
Proof.
  intros (_ & _ & Hy & _ & _). simpl in Hy. rewrite earthPath_map. simpl t.
  replace (Z.to_nat (sampleCount - 1)) with (Z.to_nat 9999) by reflexivity.
  rewrite !path_nth by (auto; unfold sampleCount; lia).
  rewrite Z2Nat.id by lia.
  unfold earth_position, earthRate. simpl.
  replace (2 * PI / YEAR_DAYS p * (0 * (YEAR_DAYS p / 9999))) with 0 by ring.
  replace (2 * PI / YEAR_DAYS p * (9999 * (YEAR_DAYS p / 9999))) with (2 * PI)
    by (field; lra).
  rewrite cos_0, sin_0, cos_2PI, sin_2PI.
  split; f_equal; ring.
Qed.

(** X11. In exact arithmetic, with valid parameters, the Moon's track
    stays in the ring around the Sun between the radii
    [sunEarthDistance - earthMoonDistance·moonScaleFactor] and
    [sunEarthDistance + earthMoonDistance·moonScaleFactor]. *)
Theorem moon_track_in_ring (p : OrbitParameters R) (i : nat) :
  valid p ->
  (Z.of_nat i < sampleCount)%Z ->
  let m := nth i (moonPath p) origin in
  let r := EM_DIST p * SCALE p in
  Rsqr (AU p - r) <= Rsqr (fst m) + Rsqr (snd m) <= Rsqr (AU p + r).
Proof.
  intros (Ha & Hem & Hy & _ & Hs) Hi. simpl in Ha, Hem, Hy, Hs.
  rewrite moonPath_map. simpl t. rewrite path_nth by assumption.
  unfold moon_position, earth_position. simpl.
  set (x := 2 * PI / YEAR_DAYS p * (IZR (Z.of_nat i) * (YEAR_DAYS p / 9999))).
  set (y := 2 * PI / MONTH_DAYS p * (IZR (Z.of_nat i) * (YEAR_DAYS p / 9999))).
  pose proof (sin2_cos2 x) as Hx. pose proof (sin2_cos2 y) as Hyy.
  unfold Rsqr in *.
  set (c1 := Rtrigo_def.cos x) in *. set (s1 := Rtrigo_def.sin x) in *.
  set (c2 := Rtrigo_def.cos y) in *. set (s2 := Rtrigo_def.sin y) in *.
  assert (Hr : 0 < EM_DIST p * SCALE p) by (apply Rmult_lt_0_compat; assumption).
  set (r := EM_DIST p * SCALE p) in *.
  assert (Hd1 : c1 * c2 + s1 * s2 <= 1)
    by (pose proof (Rle_0_sqr (c1 - c2)); pose proof (Rle_0_sqr (s1 - s2));
        unfold Rsqr in *; nra).
  assert (Hd2 : -1 <= c1 * c2 + s1 * s2)
    by (pose proof (Rle_0_sqr (c1 + c2)); pose proof (Rle_0_sqr (s1 + s2));
        unfold Rsqr in *; nra).
  assert (Har : 0 < AU p * r) by (apply Rmult_lt_0_compat; assumption).
  replace ((AU p * c1 + r * c2) * (AU p * c1 + r * c2) +
           (AU p * s1 + r * s2) * (AU p * s1 + r * s2))
    with (AU p * AU p * (s1 * s1 + c1 * c1) + r * r * (s2 * s2 + c2 * c2) +
          2 * (AU p * r) * (c1 * c2 + s1 * s2)) by ring.
  rewrite Hx, Hyy. split; nra.
Qed.
End ExactOrbit.

(** ** Editing the form and the dialog *)

Section EditFacts.
Context {F : Type} {A : Arith F} {T : Trig F} {B : Builtins F}.

Lemma dict_get_set_same (V : Type) (k : string) (v : V) (d : dict V) :
  dict_get k (dict_set k v d) = Some v.
Proof.
  induction d as [|[k' v'] d IH]; simpl.
  - now rewrite String.eqb_refl.
  - destruct (String.eqb k k') eqn:E; simpl; rewrite E; [reflexivity | exact IH].
Qed.

Lemma dict_get_set_other (V : Type) (k k' : string) (v : V) (d : dict V) :
  k' <> k -> dict_get k' (dict_set k v d) = dict_get k' d.
Proof.
  intros Hne. induction d as [|[k1 v1] d IH]; simpl.
  - destruct (String.eqb_spec k' k); [contradiction | reflexivity].
  - destruct (String.eqb_spec k k1) as [->|Hk]; simpl.
    + destruct (String.eqb_spec k' k1); [contradiction | reflexivity].
    + destruct (String.eqb k' k1); [reflexivity | exact IH].
Qed.

Lemma keys_set_present (V : Type) (k : string) (v : V) (d : dict V) :
  In k (keys d) -> keys (dict_set k v d) = keys d.
Proof.
  induction d as [|[k1 v1] d IH]; simpl; [intros []|].
  intros Hin. destruct (String.eqb_spec k k1) as [->|Hk]; simpl; [reflexivity|].
  f_equal. apply IH. destruct Hin as [->|Hin]; [contradiction | exact Hin].
Qed.

(** X12. Replacing the entry of a field that the form has changes the
    number read from that field to the one of the new text, leaves the
    numbers read from all other fields as they were, and keeps the fields
    and their order. *)
Theorem edit_field (es : dict Entry) (k : string) (e : Entry) :
  In k (keys es) ->
  field (dict_set k e es) k = float_of_string (get e) /\
  (forall k', k' <> k -> field (dict_set k e es) k' = field es k') /\
  keys (dict_set k e es) = keys es.
Proof.
  intros Hin. unfold field. repeat split.
  - now rewrite dict_get_set_same.
  - intros k' Hne. now rewrite dict_get_set_other.
  - now apply keys_set_present.
Qed.

Lemma float_entries_rejects (es : dict Entry) (acc : dict F) :
  float_entries es acc = None ->
  exists name entry,
    In (name, entry) es /\ float_of_string (get entry) = None.
Proof.
  revert acc. induction es as [|[name entry] es IH]; intros acc H; [discriminate H|].
  simpl in H. destruct (float_of_string (get entry)) as [v|] eqn:E.
  - destruct (IH _ H) as (n' & e' & Hin & Hbad).
    exists n', e'. split; [right; exact Hin | exact Hbad].
  - exists name, entry. split; [left; reflexivity | exact E].
Qed.

(** X13. A submit whose only trace is the error dialog had a field whose
    text [float] rejects: the dialog never appears alone for a form whose
    fields are all numeric. *)
Theorem dialog_alone_means_rejected (es : dict Entry) :
  calculate_and_plot es = ([input_error], None) ->
  exists name entry,
    In (name, entry) es /\ float_of_string (get entry) = None.
Proof.
  unfold calculate_and_plot.
  destruct (float_entries es []) as [vals|] eqn:Hfe.
  - destruct (read_parameters vals) as [p|e]; [|discriminate].
    destruct (zero_period p); [discriminate|].
    destruct (int_of_float (SCALE p)); discriminate.
  - intros _. exact (float_entries_rejects _ _ Hfe).
Qed.
End EditFacts.

(** ** The added theorems at the form's defaults *)

Section MoreWitnesses.
Local Open Scope R_scope.

Lemma config_keys_differ : NoDup (map item_key config_items).
Proof.
  cbn. repeat constructor; cbn; intuition discriminate.
Defined.

Lemma create_entries_fields_config :
  NoDup (map item_key config_items) /\
  map (fun kv => (fst kv, get (snd kv))) (create_entries config_items) =
  map (fun item => (item_key item, item_default item)) config_items.
Proof.
  split; [exact config_keys_differ|].
  apply create_entries_fields. exact config_keys_differ.
Defined.

Lemma create_gui_keys : NoDup (keys create_gui).
Proof.
  cbn. repeat constructor; cbn; intuition discriminate.
Defined.

Lemma create_gui_numeric : all_numeric (F := R) create_gui.
Proof.
  intros kv Hin. cbn in Hin.
  repeat (destruct Hin as [<-|Hin]; [cbn [snd get]|]); try destruct Hin.
  - rewrite (@decimal_value _ 149600000%Z 0%nat) by (vm_compute; reflexivity). discriminate.
  - rewrite (@decimal_value _ 384400%Z 0%nat) by (vm_compute; reflexivity). discriminate.
  - rewrite (@decimal_value _ 36525%Z 2%nat) by (vm_compute; reflexivity). discriminate.
  - rewrite (@decimal_value _ 2732%Z 2%nat) by (vm_compute; reflexivity). discriminate.
  - rewrite (@decimal_value _ 50%Z 0%nat) by (vm_compute; reflexivity). discriminate.
Defined.

Lemma float_entries_reads_default :
  NoDup (keys create_gui) /\
  all_numeric (F := R) create_gui /\
  exists vals : dict R,
    float_entries create_gui [] = Some vals /\
    keys vals = keys create_gui /\
    forall k, dict_get k vals = field create_gui k.
Proof.
  split; [exact create_gui_keys|]. split; [exact create_gui_numeric|].
  apply float_entries_reads; [exact create_gui_keys | exact create_gui_numeric].
Defined.

Lemma parsed_defaults_periods : zero_period parsed_defaults = false.
Proof.
  unfold zero_period. simpl.
  destruct (Req_dec_T (36525 / 100) 0) as [E|_]; [exfalso; lra|].
  destruct (Req_dec_T (2732 / 100) 0) as [E|_]; [exfalso; lra|].
  reflexivity.
Defined.

Lemma submit_plots_default :
  calculate_and_plot create_gui =
  ([Generated (trajectory parsed_defaults);
    Shown (figure_of parsed_defaults (truncate (SCALE parsed_defaults)))], None).
Proof.
  apply submit_plots; try reflexivity.
  - exact create_gui_keys.
  - exact create_gui_numeric.
  - exact parsed_defaults_periods.
Defined.

Lemma submit_missing_key_empty :
  NoDup (keys (V := Entry) []) /\
  all_numeric (F := R) [] /\
  first_missing (V := Entry) [] = Some "AU"%string /\
  calculate_and_plot (F := R) [] = ([], Some (KeyError "AU")).
Proof.
  assert (Hnd : NoDup (keys (V := Entry) [])) by constructor.
  assert (Hall : all_numeric (F := R) []) by (intros kv []).
  split; [exact Hnd|]. split; [exact Hall|]. split; [reflexivity|].
  apply submit_missing_key; [exact Hnd | exact Hall | reflexivity].
Defined.

(** The untouched form, submitted. *)
Lemma default_submit_shows :
  In (Shown (figure_of parsed_defaults (truncate (SCALE parsed_defaults))))
     (fst (calculate_and_plot create_gui)).
Proof.
  destruct (@float_entries_from R _ create_gui [] create_gui_keys create_gui_numeric)
    as (vals & Hfe & Hrel).
  pose proof (fun k => reads_lookup k Hrel) as Hget. cbn [app] in Hfe.
  unfold calculate_and_plot, read_parameters. rewrite Hfe, !Hget.
  change (field create_gui "AU") with (Some (AU parsed_defaults)).
  change (field create_gui "EM_DIST") with (Some (EM_DIST parsed_defaults)).
  change (field create_gui "YEAR") with (Some (YEAR_DAYS parsed_defaults)).
  change (field create_gui "MONTH") with (Some (MONTH_DAYS parsed_defaults)).
  change (field create_gui "SCALE") with (Some (SCALE parsed_defaults)).
  cbv iota.
  change {| AU := AU parsed_defaults; EM_DIST := EM_DIST parsed_defaults;
            YEAR_DAYS := YEAR_DAYS parsed_defaults;
            MONTH_DAYS := MONTH_DAYS parsed_defaults;
            SCALE := SCALE parsed_defaults |} with parsed_defaults.
  rewrite parsed_defaults_periods.
  right. left. reflexivity.
Defined.

Lemma shown_figure_default :
  In (Shown (figure_of parsed_defaults (truncate (SCALE parsed_defaults))))
     (fst (calculate_and_plot create_gui)) /\
  Z.of_nat (length (earth_orbit (figure_of parsed_defaults
                                   (truncate (SCALE parsed_defaults))))) = 10000%Z.
Proof.
  split; [exact default_submit_shows|].
  eapply shown_figure. exact default_submit_shows.
Defined.

Lemma sample_times_layout_binary64 :
  eq0 (div (sub 365.25%float (of_int 0)) (of_int (sampleCount - 1))) = false /\
  Z.of_nat (length (sample_times 365.25%float)) = 10000%Z /\
  nth (Z.to_nat (sampleCount - 1)) (sample_times 365.25%float) (of_int 0) =
    365.25%float.
Proof.
  split; [exact default_step|].
  pose proof (@sample_times_layout float _ 365.25%float default_step) as (Hl & Hlast & _).
  split; [exact Hl | exact Hlast].
Defined.

Lemma default_periods : zero_period default_parameters = false.
Proof.
  unfold zero_period. simpl.
  destruct (Req_dec_T 365.25 0) as [E|_]; [exfalso; lra|].
  destruct (Req_dec_T 27.32 0) as [E|_]; [exfalso; lra|].
  reflexivity.
Defined.

Lemma month_as_year_periods : zero_period month_as_year = false.
Proof.
  unfold zero_period. simpl.
  destruct (Req_dec_T 365.25 0) as [E|_]; [exfalso; lra|].
  reflexivity.
Defined.

Lemma earth_orbit_ignores_moon_default :
  zero_period default_parameters = false /\
  zero_period month_as_year = false /\
  AU default_parameters = AU month_as_year /\
  YEAR_DAYS default_parameters = YEAR_DAYS month_as_year /\
  earthPath default_parameters = earthPath month_as_year.
Proof.
  split; [exact default_periods|]. split; [exact month_as_year_periods|].
  split; [reflexivity|]. split; [reflexivity|].
  apply earth_orbit_ignores_moon;
    [exact default_periods | exact month_as_year_periods | reflexivity | reflexivity].
Defined.

Lemma earth_orbit_closes_default :
  valid default_parameters /\
  nth (Z.to_nat (sampleCount - 1)) (earthPath default_parameters) origin =
    (149600000, 0).
Proof.
  split; [exact default_parameters_valid|].
  apply earth_orbit_closes. exact default_parameters_valid.
Defined.

Lemma moon_track_in_ring_default :
  valid default_parameters /\
  (Z.of_nat 0 < sampleCount)%Z /\
  Rsqr (149600000 - 384400 * 50) <=
    Rsqr (fst (nth 0 (moonPath default_parameters) origin)) +
    Rsqr (snd (nth 0 (moonPath default_parameters) origin)) <=
  Rsqr (149600000 + 384400 * 50).
Proof.
  assert (Hi : (Z.of_nat 0 < sampleCount)%Z) by reflexivity.
  split; [exact default_parameters_valid|]. split; [exact Hi|].
  apply (@moon_track_in_ring default_parameters 0%nat default_parameters_valid Hi).
Defined.
End MoreWitnesses.

Section EditWitnesses.

Lemma edit_field_abc :
  In "AU"%string (keys create_gui) /\
  field (F := R) abc_entries "AU" = None /\
  keys abc_entries = keys create_gui.
Proof.
  assert (Hin : In "AU"%string (keys create_gui)) by (left; reflexivity).
  split; [exact Hin|].
  destruct (@edit_field R _ create_gui "AU"%string {| get := "abc" |} Hin)
    as (Hk & _ & Hkeys).
  split; [exact Hk | exact Hkeys].
Defined.

Lemma abc_only_dialog :
  calculate_and_plot (F := R) abc_entries = ([input_error], None).
Proof. reflexivity. Defined.

Lemma dialog_alone_abc :
  calculate_and_plot (F := R) abc_entries = ([input_error], None) /\
  exists name entry,
    In (name, entry) abc_entries /\
    float_of_string (F := R) (get entry) = None.
Proof.
  split; [exact abc_only_dialog|].
  apply dialog_alone_means_rejected. exact abc_only_dialog.
Defined.
End EditWitnesses.
